(** * A shallow embedding of the CHIP-8 interpreter core (src/chip.rs)

    The Rust struct [Chip8] becomes a record; fixed-size arrays become
    total functions [Z -> Z] whose accesses are bounds-checked exactly where
    Rust indexes them.  Every operation that can abort the program (array
    index out of bounds, [todo!()], integer overflow under the default
    [dev] profile, whose [overflow-checks] are on) returns [None]:
    the option monad below is the panic monad of the interpreter. *)

From Stdlib Require Import ZArith List Bool Lia.
Import ListNotations.
Open Scope Z_scope.

(** ** Panic monad *)

Definition bind {A B} (m : option A) (k : A -> option B) : option B :=
  match m with
  | Some a => k a
  | None => None
  end.

Notation "x <- m ;; k" := (bind m (fun x => k))
  (at level 61, m at next level, right associativity).

Definition panic {A} : option A := None.

(** ** Rust primitives (u8 / u16 / usize with overflow checks) *)

Definition u8_add (a b : Z) : option Z :=
  let r := a + b in if r <? 256 then Some r else panic.
Definition u8_sub (a b : Z) : option Z :=
  if b <=? a then Some (a - b) else panic.
Definition u8_mul (a b : Z) : option Z :=
  let r := a * b in if r <? 256 then Some r else panic.
Definition u16_add (a b : Z) : option Z :=
  let r := a + b in if r <? 65536 then Some r else panic.
Definition usize_sub (a b : Z) : option Z :=
  if b <=? a then Some (a - b) else panic.
(** [U12 + U12] of the twelve_bit crate: checked, like the primitive types. *)
Definition u12_add (a b : Z) : option Z :=
  let r := a + b in if r <? 4096 then Some r else panic.

(** Arrays: [a[i]] and [a[i] = v] on an array of length [len]. *)
Definition update (a : Z -> Z) (i v : Z) : Z -> Z :=
  fun j => if j =? i then v else a j.

Definition index (a : Z -> Z) (len i : Z) : option Z :=
  if (0 <=? i) && (i <? len) then Some (a i) else panic.

Definition index_set (a : Z -> Z) (len i v : Z) : option (Z -> Z) :=
  if (0 <=? i) && (i <? len) then Some (update a i v) else panic.

Definition array_of_list (l : list Z) : Z -> Z :=
  fun i => if 0 <=? i then nth (Z.to_nat i) l 0 else 0.

Definition MEM_SIZE : Z := 4096.
Definition STACK_SIZE : Z := 16.
Definition NUM_REGS : Z := 16.
Definition GFX_SIZE : Z := 2048.

(** ** Machine state *)

Record Chip8 := mkChip8 {
  opcode : Z;
  ar : Z;
  pc : Z;
  sp : Z;
  stack : Z -> Z;
  registers : Z -> Z;
  mem : Z -> Z;
  delay : Z;
  sound : Z;
  fontset : Z -> Z;
  graphics : Z -> Z;
  debug : bool
}.

Definition set_opcode (s : Chip8) (v : Z) : Chip8 :=
  mkChip8 v (ar s) (pc s) (sp s) (stack s) (registers s) (mem s)
    (delay s) (sound s) (fontset s) (graphics s) (debug s).
Definition set_ar (s : Chip8) (v : Z) : Chip8 :=
  mkChip8 (opcode s) v (pc s) (sp s) (stack s) (registers s) (mem s)
    (delay s) (sound s) (fontset s) (graphics s) (debug s).
Definition set_pc (s : Chip8) (v : Z) : Chip8 :=
  mkChip8 (opcode s) (ar s) v (sp s) (stack s) (registers s) (mem s)
    (delay s) (sound s) (fontset s) (graphics s) (debug s).
Definition set_sp (s : Chip8) (v : Z) : Chip8 :=
  mkChip8 (opcode s) (ar s) (pc s) v (stack s) (registers s) (mem s)
    (delay s) (sound s) (fontset s) (graphics s) (debug s).
Definition set_stack (s : Chip8) (v : Z -> Z) : Chip8 :=
  mkChip8 (opcode s) (ar s) (pc s) (sp s) v (registers s) (mem s)
    (delay s) (sound s) (fontset s) (graphics s) (debug s).
Definition set_registers (s : Chip8) (v : Z -> Z) : Chip8 :=
  mkChip8 (opcode s) (ar s) (pc s) (sp s) (stack s) v (mem s)
    (delay s) (sound s) (fontset s) (graphics s) (debug s).
Definition set_mem (s : Chip8) (v : Z -> Z) : Chip8 :=
  mkChip8 (opcode s) (ar s) (pc s) (sp s) (stack s) (registers s) v
    (delay s) (sound s) (fontset s) (graphics s) (debug s).
Definition set_delay (s : Chip8) (v : Z) : Chip8 :=
  mkChip8 (opcode s) (ar s) (pc s) (sp s) (stack s) (registers s) (mem s)
    v (sound s) (fontset s) (graphics s) (debug s).
Definition set_sound (s : Chip8) (v : Z) : Chip8 :=
  mkChip8 (opcode s) (ar s) (pc s) (sp s) (stack s) (registers s) (mem s)
    (delay s) v (fontset s) (graphics s) (debug s).
Definition set_graphics (s : Chip8) (v : Z -> Z) : Chip8 :=
  mkChip8 (opcode s) (ar s) (pc s) (sp s) (stack s) (registers s) (mem s)
    (delay s) (sound s) (fontset s) v (debug s).

(** [self.registers[i] = v] *)
Definition set_reg (s : Chip8) (i v : Z) : option Chip8 :=
  r <- index_set (registers s) NUM_REGS i v ;;
  Some (set_registers s r).

(** ** [Chip8::new] *)

Definition fontset_bytes : list Z := [
  0xF0; 0x90; 0x90; 0x90; 0xF0;
  0x20; 0x60; 0x20; 0x20; 0x70;
  0xF0; 0x10; 0xF0; 0x80; 0xF0;
  0xF0; 0x10; 0xF0; 0x10; 0xF0;
  0x90; 0x90; 0xF0; 0x10; 0x10;
  0xF0; 0x80; 0xF0; 0x10; 0xF0;
  0xF0; 0x80; 0xF0; 0x90; 0xF0;
  0xF0; 0x10; 0x20; 0x40; 0x40;
  0xF0; 0x90; 0xF0; 0x90; 0xF0;
  0xF0; 0x90; 0xF0; 0x10; 0xF0;
  0xF0; 0x90; 0xF0; 0x90; 0x90;
  0xE0; 0x90; 0xE0; 0x90; 0xE0;
  0xF0; 0x80; 0x80; 0x80; 0xF0;
  0xE0; 0x90; 0x90; 0x90; 0xE0;
  0xF0; 0x80; 0xF0; 0x80; 0xF0;
  0xF0; 0x80; 0xF0; 0x80; 0x80].

(** [for i in 0..fontset.len() { mem[i] = fontset[i]; }] *)
Fixpoint copy_font (k : nat) (i : Z) (font m : Z -> Z) : Z -> Z :=
  match k with
  | O => m
  | S k' => copy_font k' (i + 1) font (update m i (font i))
  end.

Definition new (dbg : bool) : Chip8 :=
  let font := array_of_list fontset_bytes in
  {| opcode := 0; ar := 0; pc := 0x200; sp := 0;
     stack := fun _ => 0; registers := fun _ => 0;
     mem := copy_font 80 0 font (fun _ => 0);
     delay := 0; sound := 0; fontset := font;
     graphics := fun _ => 0; debug := dbg |}.

(** ** [load_rom]

    [std::fs::read] is the environment: its outcome is an input, either an
    I/O error (propagated by [?]) or the file's bytes. *)

Inductive io_error := IoError.

(** [for i in 0..vals.len() { mem[base + i] = vals[i]; }] *)
Fixpoint store_bytes (vals : list Z) (base i : Z) (m : Z -> Z) : option (Z -> Z) :=
  match vals with
  | [] => Some m
  | v :: vs =>
      m' <- index_set m MEM_SIZE (base + i) v ;;
      store_bytes vs base (i + 1) m'
  end.

Definition load_rom (file : io_error + list Z) (s : Chip8)
  : option (Chip8 * (io_error + unit)) :=
  match file with
  | inl e => Some (s, inl e)
  | inr bytes =>
      m <- store_bytes bytes 0x200 0 (mem s) ;;
      Some (set_mem s m, inr tt)
  end.

(** ** Fetch *)

Definition get_next_instruction (s : Chip8) : option Chip8 :=
  let i := pc s in
  hi <- index (mem s) MEM_SIZE i ;;
  lo <- index (mem s) MEM_SIZE (i + 1) ;;
  let s := set_opcode s (Z.lor (Z.shiftl hi 8) lo) in
  pc' <- u16_add (pc s) 2 ;;
  Some (set_pc s pc').

(** The [if self.debug { println!(..) }] block reads [mem[pc]] and [mem[pc+1]]. *)
Definition debug_print (s : Chip8) : option unit :=
  if debug s then
    _ <- index (mem s) MEM_SIZE (pc s) ;;
    _ <- index (mem s) MEM_SIZE (pc s + 1) ;;
    Some tt
  else Some tt.

Definition op_x (s : Chip8) : Z := Z.land (Z.shiftr (opcode s) 8) 0x0F.
Definition op_y (s : Chip8) : Z := Z.land (Z.shiftr (opcode s) 4) 0x0F.
Definition op_kk (s : Chip8) : Z := Z.land (opcode s) 0xFF.

Definition clear_display (s : Chip8) : Chip8 := set_graphics s (fun _ => 0).

(** ** [00EE]: the return loop
    [for i in 0..16 { if i == 0 { pc = stack[i - 1]; sp -= 1; break; } ... }] *)
Fixpoint ret_loop (k : nat) (i : Z) (s : Chip8) : option Chip8 :=
  match k with
  | O => Some s
  | S k' =>
      if i =? 0 then
        j <- usize_sub i 1 ;;
        v <- index (stack s) STACK_SIZE j ;;
        let s := set_pc s v in
        sp' <- u8_sub (sp s) 1 ;;
        Some (set_sp s sp')
      else ret_loop k' (i + 1) s
  end.

(** ** [2nnn]: the push loop
    [for i in 0..16 { if stack[i] == 0 { stack[i] = pc; break; } }] *)
Fixpoint push_scan (k : nat) (i : Z) (st : Z -> Z) (v : Z) : Z -> Z :=
  match k with
  | O => st
  | S k' => if st i =? 0 then update st i v else push_scan k' (i + 1) st v
  end.

(** ** [8xy_]: the ALU, dispatched on [self.opcode >> 12] as in the source *)
Definition exec_alu (s : Chip8) : option Chip8 :=
  let x := op_x s in
  vx <- index (registers s) NUM_REGS x ;;
  vy <- index (registers s) NUM_REGS (op_y s) ;;
  let sub := Z.shiftr (opcode s) 12 in
  if sub =? 0x0 then set_reg s x vy
  else if sub =? 0x1 then set_reg s x (Z.lor vx vy)
  else if sub =? 0x2 then set_reg s x (Z.land vx vy)
  else if sub =? 0x3 then set_reg s x (Z.lxor vx vy)
  else if sub =? 0x4 then
    let result := vx + vy in
    if 255 <? result then
      s <- set_reg s 0xF 1 ;;
      set_reg s x ((result mod 255) mod 256)
    else
      s <- set_reg s 0xF 0 ;;
      set_reg s x (result mod 256)
  else if sub =? 0x5 then
    s <- set_reg s 0xF (if vy <? vx then 1 else 0) ;;
    d <- u8_sub vx vy ;;
    set_reg s x d
  else if sub =? 0x6 then
    s <- set_reg s 0xF (Z.land vx 1) ;;
    set_reg s x (Z.shiftr vx 1)
  else if sub =? 0x7 then
    s <- set_reg s 0xF (if vx <? vy then 1 else 0) ;;
    d <- u8_sub vy vx ;;
    set_reg s x d
  else if sub =? 0xE then
    s <- set_reg s 0xF (Z.land (Z.shiftr vx 7) 1) ;;
    set_reg s x (Z.shiftl vx 1 mod 256)
  else Some s.  (* eprintln!("Unknown instruction") *)

(** ** [Dxyn]: [draw_sprite] *)

(** [for i in 0..8 { bits[7 - i] = ((sprite >> i) & 1) as u8; }] *)
Fixpoint fill_bits (k : nat) (i sprite : Z) (bits : Z -> Z) : Z -> Z :=
  match k with
  | O => bits
  | S k' => fill_bits k' (i + 1) sprite
              (update bits (7 - i) (Z.land (Z.shiftr sprite i) 1))
  end.

(** The column loop [for col in 0..8 { .. }] of one sprite row. *)
Fixpoint draw_cols (k : nat) (col x_coord y_coord row : Z) (bits : Z -> Z)
    (s : Chip8) : option Chip8 :=
  match k with
  | O => Some s
  | S k' =>
      x_cor <- u8_add x_coord col ;;
      y_cor <- u8_add y_coord row ;;
      s <- (if bits col =? 1 then
              t <- u8_mul x_cor 64 ;;
              g <- u8_add t y_cor ;;
              p <- index (graphics s) GFX_SIZE g ;;
              if p =? 1 then set_reg s 0xF 1
              else
                gfx <- index_set (graphics s) GFX_SIZE g 1 ;;
                Some (set_graphics s gfx)
            else Some s) ;;
      if 63 <? y_cor then Some s
      else draw_cols k' (col + 1) x_coord y_coord row bits s
  end.

(** The row loop [for row in 0..n { .. }]. *)
Fixpoint draw_rows (k : nat) (row x_coord y_coord : Z) (s : Chip8)
    : option Chip8 :=
  match k with
  | O => Some s
  | S k' =>
      sprite <- index (mem s) MEM_SIZE (ar s + row) ;;
      let bits := fill_bits 8 0 sprite (fun _ => 0) in
      s <- draw_cols 8 0 x_coord y_coord row bits s ;;
      c <- u8_add x_coord row ;;
      if 31 <? c then Some s
      else draw_rows k' (row + 1) x_coord y_coord s
  end.

Definition draw_sprite (s : Chip8) : option Chip8 :=
  let x := op_x s in
  let y := op_y s in
  let n := Z.shiftr (opcode s) 12 in
  vx <- index (registers s) NUM_REGS x ;;
  vy <- index (registers s) NUM_REGS y ;;
  let x_coord := vx mod 64 in
  let y_coord := vy mod 32 in
  s <- set_reg s 0xF 0 ;;
  draw_rows (Z.to_nat n) 0 x_coord y_coord s.

(** ** [Fx__] *)

(** [vx.to_string()] as its decimal digits, most significant first. *)
Fixpoint decimal_digits (fuel : nat) (v : Z) (acc : list Z) : list Z :=
  match fuel with
  | O => v :: acc
  | S f => if v <? 10 then v :: acc
           else decimal_digits f (v / 10) (v mod 10 :: acc)
  end.

Definition to_string_digits (v : Z) : list Z := decimal_digits 3 v [].

(** [for i in 0..=x { mem[ar + i] = registers[i]; }] *)
Fixpoint store_regs (k : nat) (i : Z) (s : Chip8) : option Chip8 :=
  match k with
  | O => Some s
  | S k' =>
      v <- index (registers s) NUM_REGS i ;;
      m <- index_set (mem s) MEM_SIZE (ar s + i) v ;;
      store_regs k' (i + 1) (set_mem s m)
  end.

(** [for i in 0..=x { registers[i] = mem[ar + i]; }] *)
Fixpoint load_regs (k : nat) (i : Z) (s : Chip8) : option Chip8 :=
  match k with
  | O => Some s
  | S k' =>
      v <- index (mem s) MEM_SIZE (ar s + i) ;;
      s <- set_reg s i v ;;
      load_regs k' (i + 1) s
  end.

Definition exec_f (s : Chip8) : option Chip8 :=
  let x := op_x s in
  vx <- index (registers s) NUM_REGS x ;;
  let k := Z.land (opcode s) 0xFF in
  if k =? 0x07 then set_reg s x (delay s)
  else if k =? 0x0A then panic                         (* todo!() *)
  else if k =? 0x15 then Some (set_sound s vx)
  else if k =? 0x18 then Some (set_delay s vx)
  else if k =? 0x1E then a <- u12_add (ar s) vx ;; Some (set_ar s a)
  else if k =? 0x29 then v <- u8_mul vx 0x5 ;; Some (set_ar s v)
  else if k =? 0x33 then
    let value := rev (to_string_digits vx) in
    m <- store_bytes value (ar s) 0 (mem s) ;;
    Some (set_mem s m)
  else if k =? 0x55 then store_regs (S (Z.to_nat x)) 0 s
  else if k =? 0x65 then load_regs (S (Z.to_nat x)) 0 s
  else Some s.                                         (* unknown *)

(** ** The [match (self.opcode >> 12) & 0xF] of [execute], on the state
    after the fetch.  [rand] is the byte returned by [rand::random::<u8>()]
    for [Cxkk]. *)
Definition dispatch (rand : Z) (s : Chip8) : option Chip8 :=
  let op := opcode s in
  let cls := Z.land (Z.shiftr op 12) 0xF in
  if cls =? 0x0 then
    if op =? 0x00E0 then Some (clear_display s)
    else if op =? 0x00EE then ret_loop 16 0 s
    else Some s
  else if cls =? 0x1 then Some (set_pc s (Z.land op 0xF))
  else if cls =? 0x2 then
    sp' <- u8_add (sp s) 1 ;;
    let s := set_sp s sp' in
    let s := set_stack s (push_scan 16 0 (stack s) (pc s)) in
    Some (set_pc s (Z.shiftr op 4))
  else if cls =? 0x3 then
    vx <- index (registers s) NUM_REGS (op_x s) ;;
    if vx =? op_kk s then pc' <- u16_add (pc s) 2 ;; Some (set_pc s pc')
    else Some s
  else if cls =? 0x4 then
    vx <- index (registers s) NUM_REGS (op_x s) ;;
    if negb (vx =? op_kk s) then pc' <- u16_add (pc s) 2 ;; Some (set_pc s pc')
    else Some s
  else if cls =? 0x5 then
    vx <- index (registers s) NUM_REGS (op_x s) ;;
    vy <- index (registers s) NUM_REGS (op_y s) ;;
    if vx =? vy then pc' <- u16_add (pc s) 2 ;; Some (set_pc s pc')
    else Some s
  else if cls =? 0x6 then set_reg s (op_x s) (op_kk s)
  else if cls =? 0x7 then
    vx <- index (registers s) NUM_REGS (op_x s) ;;
    v <- u8_add vx (op_kk s) ;;
    set_reg s (op_x s) v
  else if cls =? 0x8 then exec_alu s
  else if cls =? 0x9 then
    vx <- index (registers s) NUM_REGS (op_x s) ;;
    vy <- index (registers s) NUM_REGS (op_y s) ;;
    if negb (vx =? vy) then pc' <- u16_add (pc s) 2 ;; Some (set_pc s pc')
    else Some s
  else if cls =? 0xA then set_reg s (ar s) (Z.land op 0xF)
  else if cls =? 0xB then
    v0 <- index (registers s) NUM_REGS 0 ;;
    (* [self.opcode & 0xF + v0 as u16] parses as [opcode & (0xF + v0)] *)
    Some (set_pc s (Z.land op (0xF + v0)))
  else if cls =? 0xC then set_reg s (op_x s) (Z.land rand (op_kk s))
  else if cls =? 0xD then draw_sprite s
  else if cls =? 0xE then
    let k := Z.land op 0xFF in
    if k =? 0x9E then panic                            (* todo!() *)
    else if k =? 0xA1 then panic                       (* todo!() *)
    else Some s
  else exec_f s.

(** [execute]: fetch, the debug print, dispatch. *)
Definition execute (rand : Z) (s : Chip8) : option Chip8 :=
  s <- get_next_instruction s ;;
  _ <- debug_print s ;;
  dispatch rand s.

(** Running [execute] [n] times with a stream of random bytes. *)
Fixpoint run (rnd : nat -> Z) (n : nat) (s : Chip8) : option Chip8 :=
  match n with
  | O => Some s
  | S n' => s' <- execute (rnd n) s ;; run rnd n' s'
  end.

(** ** [main]

    After [Chip8::new(true)], [clear_display] and [load_rom("BRIX")], the
    loop body is [chip.get_next_instruction(); chip.execute();]. *)
Definition main_iteration (rand : Z) (s : Chip8) : option Chip8 :=
  s <- get_next_instruction s ;;
  execute rand s.

(** Writing a program into memory (test fixtures). *)
Definition poke (s : Chip8) (a : Z) (bytes : list Z) : Chip8 :=
  set_mem s (fold_left (fun m '(i, b) => update m (a + i) b)
               (combine (map Z.of_nat (seq 0 (length bytes))) bytes) (mem s)).

(** ** Test fixtures *)

(** The state reached after the fetch, or [s] itself if the fetch panics. *)
Definition fetched (s : Chip8) : Chip8 :=
  match get_next_instruction s with Some s1 => s1 | None => s end.

(** The state after [n] instructions, or [s] itself if one of them panics. *)
Definition after (n : nat) (s : Chip8) : Chip8 :=
  match run (fun _ => 0) n s with Some s' => s' | None => s end.

(** A fresh machine with V0 = [v0], V1 = [v1], I = [i] and the instruction
    [hi lo] at 0x200. *)
Definition fixture (v0 v1 i hi lo : Z) : Chip8 :=
  poke (set_ar (set_registers (new false)
                  (fun r => if r =? 0 then v0 else if r =? 1 then v1 else 0)) i)
       0x200 [hi; lo].

(** [D001; D001]: the font glyph "0" (I = 0) drawn twice at (V0, V0). *)
Definition fixture_draw_twice : Chip8 :=
  poke (new false) 0x200 [0xD0; 0x01; 0xD0; 0x01].

(** [2220] at 0x200, calling 0x222, which holds [00EE]. *)
Definition fixture_call_ret : Chip8 :=
  poke (poke (new false) 0x200 [0x22; 0x20]) 0x222 [0x00; 0xEE].

(** [2200] at 0x220: a call whose target is itself. *)
Definition fixture_call_loop : Chip8 :=
  set_pc (poke (new false) 0x220 [0x22; 0x00]) 0x220.

(** [6001; 6102] at 0x200. *)
Definition fixture_two_loads : Chip8 :=
  poke (new false) 0x200 [0x60; 0x01; 0x61; 0x02].

(** Evaluates a closed side condition. *)
Ltac concrete :=
  repeat match goal with |- _ /\ _ => split end;
  vm_compute; first [reflexivity | intro; discriminate].

(** * Proofs *)

(** ** Bounds and array lemmas *)

Lemma nibble_range (a : Z) : 0 <= Z.land a 0x0F < 16.
Proof.
  change 0x0F with (Z.ones 4). rewrite Z.land_ones by lia.
  apply Z.mod_pos_bound. lia.
Qed.

Lemma index_in_bounds (a : Z -> Z) (len i : Z) :
  0 <= i < len -> index a len i = Some (a i).
Proof.
  intros [H1 H2]. unfold index.
  apply Z.leb_le in H1. apply Z.ltb_lt in H2. rewrite H1, H2. reflexivity.
Qed.

Lemma index_set_in_bounds (a : Z -> Z) (len i v : Z) :
  0 <= i < len -> index_set a len i v = Some (update a i v).
Proof.
  intros [H1 H2]. unfold index_set.
  apply Z.leb_le in H1. apply Z.ltb_lt in H2. rewrite H1, H2. reflexivity.
Qed.

Lemma index_set_out_of_bounds (a : Z -> Z) (len i v : Z) :
  len <= i -> index_set a len i v = None.
Proof.
  intro H. unfold index_set.
  destruct (Z.ltb_spec i len); [lia|]. now rewrite andb_false_r.
Qed.

Lemma index_reg (s : Chip8) (a : Z) :
  index (registers s) NUM_REGS (Z.land a 0x0F)
  = Some (registers s (Z.land a 0x0F)).
Proof. apply index_in_bounds. apply nibble_range. Qed.

(** [execute] on a state whose fetch and debug print succeed is [dispatch]. *)
Lemma execute_after_fetch (r : Z) (s s1 : Chip8) :
  get_next_instruction s = Some s1 -> debug_print s1 = Some tt ->
  execute r s = dispatch r s1.
Proof. intros Hf Hd. unfold execute. rewrite Hf. cbn [bind]. now rewrite Hd. Qed.

(** The class nibble [(opcode >> 12) & 0xF] of a 16-bit opcode. *)
Lemma class_nibble (op c : Z) :
  Z.shiftr op 12 = c -> 0 <= c < 16 -> Z.land (Z.shiftr op 12) 0xF = c.
Proof.
  intros H Hc. rewrite H. change 0xF with (Z.ones 4).
  rewrite Z.land_ones by lia. apply Z.mod_small. change (2 ^ 4) with 16. lia.
Qed.

(** The ALU sub-dispatch reads [self.opcode >> 12], which is 8 for every
    opcode of class 8: every [8xy_] falls to the unknown-instruction arm. *)
Lemma exec_alu_noop (s : Chip8) :
  Z.shiftr (opcode s) 12 = 8 -> exec_alu s = Some s.
Proof.
  intro H. unfold exec_alu, op_x, op_y.
  rewrite !index_reg. cbn [bind]. rewrite H. reflexivity.
Qed.

Lemma dispatch_alu_noop (r : Z) (s : Chip8) :
  Z.shiftr (opcode s) 12 = 8 -> dispatch r s = Some s.
Proof.
  intro H. unfold dispatch.
  rewrite (class_nibble (opcode s) 8) by (assumption || lia).
  cbn -[exec_alu]. now apply exec_alu_noop.
Qed.

(** ** Sprite drawing *)

Lemma set_reg_graphics (s s' : Chip8) (i v : Z) :
  set_reg s i v = Some s' -> graphics s' = graphics s.
Proof.
  unfold set_reg, index_set. destruct (_ && _); cbn [bind]; intro H;
    [injection H as <-; reflexivity | discriminate].
Qed.

(** A column step only ever writes 1 into the framebuffer. *)
Lemma draw_cols_keeps_set (k : nat) (col xc yc row : Z) (bits : Z -> Z)
    (s s' : Chip8) (g : Z) :
  draw_cols k col xc yc row bits s = Some s' ->
  graphics s g = 1 -> graphics s' g = 1.
Proof.
  revert col s. induction k as [|k IH]; intros col s H Hg; cbn in H.
  - now injection H as <-.
  - destruct (u8_add xc col) as [x_cor|]; cbn [bind] in H; [|discriminate].
    destruct (u8_add yc row) as [y_cor|]; cbn [bind] in H; [|discriminate].
    assert (Hmid : forall s1,
      (if bits col =? 1 then
         t <- u8_mul x_cor 64 ;; g' <- u8_add t y_cor ;;
         p <- index (graphics s) GFX_SIZE g' ;;
         if p =? 1 then set_reg s 15 1
         else gfx <- index_set (graphics s) GFX_SIZE g' 1 ;;
              Some (set_graphics s gfx)
       else Some s) = Some s1 -> graphics s1 g = 1).
    { intros s1 H1. destruct (bits col =? 1); [|now injection H1 as <-].
      destruct (u8_mul x_cor 64) as [t|]; cbn [bind] in H1; [|discriminate].
      destruct (u8_add t y_cor) as [g'|]; cbn [bind] in H1; [|discriminate].
      destruct (index (graphics s) GFX_SIZE g') as [p|]; cbn [bind] in H1;
        [|discriminate].
      destruct (p =? 1).
      - apply set_reg_graphics in H1. now rewrite H1.
      - destruct (index_set (graphics s) GFX_SIZE g' 1) as [gfx|] eqn:E;
          cbn [bind] in H1; [|discriminate].
        injection H1 as <-. cbn.
        unfold index_set in E. destruct (_ && _); [|discriminate].
        injection E as <-. unfold update. now destruct (g =? g'). }
    destruct (if bits col =? 1 then _ else _) as [s1|] eqn:E in H;
      cbn [bind] in H; [|discriminate].
    specialize (Hmid s1 E).
    destruct (63 <? y_cor).
    + now injection H as <-.
    + exact (IH _ _ H Hmid).
Qed.

Lemma draw_rows_keeps_set (k : nat) (row xc yc : Z) (s s' : Chip8) (g : Z) :
  draw_rows k row xc yc s = Some s' -> graphics s g = 1 -> graphics s' g = 1.
Proof.
  revert row s. induction k as [|k IH]; intros row s H Hg; cbn [draw_rows] in H.
  - now injection H as <-.
  - destruct (index (mem s) MEM_SIZE (ar s + row)) as [sprite|];
      cbn [bind] in H; [|discriminate].
    destruct (draw_cols 8 0 xc yc row _ s) as [s1|] eqn:E;
      cbn [bind] in H; [|discriminate].
    pose proof (draw_cols_keeps_set _ _ _ _ _ _ _ _ g E Hg) as H1.
    destruct (u8_add xc row) as [c|]; cbn [bind] in H; [|discriminate].
    destruct (31 <? c).
    + now injection H as <-.
    + exact (IH _ _ H H1).
Qed.

(** [draw_sprite] never turns a set pixel off: there is no XOR. *)
Lemma draw_sprite_never_clears (s s' : Chip8) (g : Z) :
  draw_sprite s = Some s' -> graphics s g = 1 -> graphics s' g = 1.
Proof.
  unfold draw_sprite, op_x, op_y. rewrite !index_reg. cbn [bind].
  intros H Hg.
  destruct (set_reg s 15 0) as [s1|] eqn:E; cbn [bind] in H; [|discriminate].
  apply set_reg_graphics in E.
  eapply draw_rows_keeps_set; [exact H|]. now rewrite E.
Qed.

(** The row count is [opcode >> 12], which is 0xD for every [Dxyn]. *)
Lemma draw_sprite_rows (s : Chip8) :
  Z.shiftr (opcode s) 12 = 0xD ->
  draw_sprite s =
    (s1 <- set_reg s 0xF 0 ;;
     draw_rows 13 0 (registers s (op_x s) mod 64)
                    (registers s (op_y s) mod 32) s1).
Proof.
  intro H. unfold draw_sprite. rewrite H. unfold op_x, op_y.
  rewrite !index_reg. reflexivity.
Qed.

(** C1 (failing input).  A fresh machine runs [D001] twice: V0 = 0 and
    I = 0 (the glyph "0", first byte 0xF0).  Under the XOR rule the second
    draw would turn every pixel of the first one off again; the code sets
    VF = 1 and leaves the framebuffer cell 0 set. *)
Theorem draw_twice_keeps_pixels :
  option_map (fun s => (registers s 0xF, graphics s 0))
    (run (fun _ => 0) 2 fixture_draw_twice) = Some (1, 1).
Proof. vm_compute. reflexivity. Qed.

(** ** Call and return *)

Lemma ret_loop_panics (s : Chip8) : ret_loop 16 0 s = None.
Proof. reflexivity. Qed.

(** C2.  Every [00EE] panics: the return loop's first iteration indexes
    [stack[i - 1]] with [i = 0], an underflowing [usize] subtraction, so
    no call/return round trip ever restores [pc]. *)
Theorem return_always_panics (r : Z) (s : Chip8) :
  option_map opcode (get_next_instruction s) = Some 0x00EE ->
  execute r s = None.
Proof.
  intro H. unfold execute.
  destruct (get_next_instruction s) as [s1|]; cbn [bind]; [|reflexivity].
  injection H as H.
  destruct (debug_print s1) as [[]|]; cbn [bind]; [|reflexivity].
  unfold dispatch. rewrite H. cbn -[ret_loop]. apply ret_loop_panics.
Qed.

(** C2 witness: [2220] at 0x200 succeeds with [pc = 0x222]; the [00EE]
    found there panics instead of returning to 0x202. *)
Lemma return_always_panics_witness :
  option_map pc (execute 0 fixture_call_ret) = Some 0x222 /\
  execute 0 (after 1 fixture_call_ret) = None.
Proof.
  split.
  - vm_compute. reflexivity.
  - apply (return_always_panics 0 (after 1 fixture_call_ret)).
    vm_compute. reflexivity.
Defined.

Lemma push_scan_full (k : nat) (i : Z) (st : Z -> Z) (v : Z) :
  (forall j, i <= j < i + Z.of_nat k -> st j <> 0) ->
  push_scan k i st v = st.
Proof.
  revert i. induction k as [|k IH]; intros i H; cbn; [reflexivity|].
  destruct (Z.eqb_spec (st i) 0) as [E|E].
  - exfalso. apply (H i); [lia | exact E].
  - apply IH. intros j Hj. apply H. lia.
Qed.

(** C3.  A [2nnn] call on a full stack (all 16 slots non-zero) reports no
    overflow: it succeeds, increments [sp] past 16 and jumps, but the scan
    for a free slot finds none, so the return address is dropped and the
    stack is left as it was. *)
Theorem call_on_full_stack_drops_return (r : Z) (s s1 : Chip8) :
  get_next_instruction s = Some s1 -> debug_print s1 = Some tt ->
  Z.shiftr (opcode s1) 12 = 2 -> 0 <= sp s1 < 255 ->
  (forall j, 0 <= j < 16 -> stack s1 j <> 0) ->
  exists s', execute r s = Some s' /\
    sp s' = sp s1 + 1 /\
    stack s' = stack s1 /\
    pc s' = Z.shiftr (opcode s1) 4.
Proof.
  intros Hf Hd Hc Hsp Hfull. rewrite (execute_after_fetch r s s1 Hf Hd).
  unfold dispatch.
  rewrite (class_nibble (opcode s1) 2) by (assumption || lia). cbn -[push_scan].
  unfold u8_add. destruct (Z.ltb_spec (sp s1 + 1) 256); [|lia]. cbn -[push_scan].
  eexists. split; [reflexivity|]. cbn -[push_scan].
  split; [reflexivity|]. split; [|reflexivity].
  apply push_scan_full. intros j Hj. apply Hfull. lia.
Qed.

(** C3 witness: 16 self-calls of [fixture_call_loop] from an empty stack
    fill every slot with 0x222; the 17th call then succeeds with [sp = 17]
    and the stack unchanged, so its return address 0x222 is not pushed. *)
Lemma call_on_full_stack_drops_return_witness :
  option_map (fun s => (sp s, stack s 0, stack s 15))
    (run (fun _ => 0) 16 fixture_call_loop) = Some (16, 0x222, 0x222) /\
  option_map sp (run (fun _ => 0) 17 fixture_call_loop) = Some 17 /\
  exists s', execute 0 (after 16 fixture_call_loop) = Some s' /\
    sp s' = 16 + 1 /\
    stack s' = stack (fetched (after 16 fixture_call_loop)) /\
    pc s' = Z.shiftr (opcode (fetched (after 16 fixture_call_loop))) 4.
Proof.
  split; [vm_compute; reflexivity|].
  split; [vm_compute; reflexivity|].
  change (16 + 1) with (sp (fetched (after 16 fixture_call_loop)) + 1).
  assert (E : sp (fetched (after 16 fixture_call_loop)) = 16)
    by (vm_compute; reflexivity).
  apply (call_on_full_stack_drops_return 0 (after 16 fixture_call_loop)
           (fetched (after 16 fixture_call_loop)));
    [vm_compute; reflexivity .. | rewrite E; lia |].
  intros j Hj.
  assert (Hs : forall j, 0 <= j < 16 ->
            stack (fetched (after 16 fixture_call_loop)) j = 0x222).
  { intros k Hk.
    assert (k = 0 \/ k = 1 \/ k = 2 \/ k = 3 \/ k = 4 \/ k = 5 \/ k = 6 \/
            k = 7 \/ k = 8 \/ k = 9 \/ k = 10 \/ k = 11 \/ k = 12 \/
            k = 13 \/ k = 14 \/ k = 15) as Hk' by lia.
    repeat destruct Hk' as [-> | Hk']; try (subst k); vm_compute; reflexivity. }
  rewrite (Hs j Hj). discriminate.
Defined.

(** ** The ALU *)

(** C4.  Every [8xy_] instruction, [8xy4] included, leaves the fetched
    state unchanged: the sub-dispatch reads [self.opcode >> 12] (always 8)
    instead of the low nibble, so no sum is stored and VF is not written. *)
Theorem add_carry_is_noop (r : Z) (s s1 : Chip8) :
  get_next_instruction s = Some s1 -> debug_print s1 = Some tt ->
  Z.shiftr (opcode s1) 12 = 8 -> execute r s = Some s1.
Proof.
  intros Hf Hd Hc. rewrite (execute_after_fetch r s s1 Hf Hd).
  now apply dispatch_alu_noop.
Qed.

(** C4 witness: V0 = 250, V1 = 10, [8014]: V0 stays 250 and VF stays 0. *)
Lemma add_carry_is_noop_witness :
  execute 0 (fixture 250 10 0 0x80 0x14)
    = Some (fetched (fixture 250 10 0 0x80 0x14)) /\
  registers (fetched (fixture 250 10 0 0x80 0x14)) 0 = 250 /\
  registers (fetched (fixture 250 10 0 0x80 0x14)) 0xF = 0.
Proof.
  split; [|split; vm_compute; reflexivity].
  apply add_carry_is_noop; vm_compute; reflexivity.
Defined.

(** C5 (failing inputs).  [7001] with V0 = 255 panics on the u8 addition
    ([+=] is not [wrapping_add]); [8015] with V0 = 1, V1 = 2 is a no-op,
    leaving V0 = 1 instead of 255. *)
Theorem wrapping_arith_fails :
  execute 0 (fixture 255 0 0 0x70 0x01) = None /\
  option_map (fun s => (registers s 0, registers s 0xF))
    (execute 0 (fixture 1 2 0 0x80 0x15)) = Some (1, 0).
Proof. split; vm_compute; reflexivity. Qed.

(** ** Jumps and the address register *)

(** C6.  [1nnn] sets [pc] to [opcode & 0xF], the low 4 bits only. *)
Theorem jump_keeps_low_nibble (r : Z) (s s1 : Chip8) :
  get_next_instruction s = Some s1 -> debug_print s1 = Some tt ->
  Z.shiftr (opcode s1) 12 = 1 ->
  execute r s = Some (set_pc s1 (Z.land (opcode s1) 0xF)).
Proof.
  intros Hf Hd Hc. rewrite (execute_after_fetch r s s1 Hf Hd).
  unfold dispatch. rewrite (class_nibble (opcode s1) 1) by (assumption || lia).
  reflexivity.
Qed.

(** C6 witness: [1234] jumps to 4, not to 0x234. *)
Lemma jump_keeps_low_nibble_witness :
  execute 0 (fixture 0 0 0 0x12 0x34)
    = Some (set_pc (fetched (fixture 0 0 0 0x12 0x34))
              (Z.land (opcode (fetched (fixture 0 0 0 0x12 0x34))) 0xF)) /\
  Z.land (opcode (fetched (fixture 0 0 0 0x12 0x34))) 0xF = 4.
Proof.
  split; [|vm_compute; reflexivity].
  apply jump_keeps_low_nibble; vm_compute; reflexivity.
Defined.

(** C7.  [Annn] leaves I as it is and writes [opcode & 0xF] into the
    general register indexed by I (it panics when I >= 16). *)
Theorem annn_writes_register (r : Z) (s s1 : Chip8) :
  get_next_instruction s = Some s1 -> debug_print s1 = Some tt ->
  Z.shiftr (opcode s1) 12 = 0xA -> 0 <= ar s1 < 16 ->
  execute r s
    = Some (set_registers s1
              (update (registers s1) (ar s1) (Z.land (opcode s1) 0xF))).
Proof.
  intros Hf Hd Hc Har. rewrite (execute_after_fetch r s s1 Hf Hd).
  unfold dispatch. rewrite (class_nibble (opcode s1) 0xA) by (assumption || lia).
  unfold set_reg.
  rewrite (index_set_in_bounds (registers s1) NUM_REGS (ar s1)) by exact Har.
  reflexivity.
Qed.

(** C7 witness: I = 0, [A123]: V0 becomes 3 and I stays 0. *)
Lemma annn_writes_register_witness :
  execute 0 (fixture 0 0 0 0xA1 0x23)
    = Some (set_registers (fetched (fixture 0 0 0 0xA1 0x23))
              (update (registers (fetched (fixture 0 0 0 0xA1 0x23)))
                 (ar (fetched (fixture 0 0 0 0xA1 0x23)))
                 (Z.land (opcode (fetched (fixture 0 0 0 0xA1 0x23))) 0xF))) /\
  option_map (fun s => (registers s 0, ar s))
    (execute 0 (fixture 0 0 0 0xA1 0x23)) = Some (3, 0).
Proof.
  split; [|vm_compute; reflexivity].
  assert (E : ar (fetched (fixture 0 0 0 0xA1 0x23)) = 0)
    by (vm_compute; reflexivity).
  apply annn_writes_register; [vm_compute; reflexivity .. | rewrite E; lia].
Defined.

(** ** [Fx33] and the timers *)

(** C8 (failing inputs).  With I = 0x300, [F033] stores the decimal digits
    of V0 least significant first, and only as many as [to_string] yields:
    V0 = 123 gives 3, 2, 1 (100*3 + 10*2 + 1 = 321); V0 = 5 gives 5, 0, 0. *)
Theorem bcd_digits_reversed :
  option_map (fun s => (mem s 0x300, mem s 0x301, mem s 0x302))
    (execute 0 (fixture 123 0 0x300 0xF0 0x33)) = Some (3, 2, 1) /\
  option_map (fun s => (mem s 0x300, mem s 0x301, mem s 0x302))
    (execute 0 (fixture 5 0 0x300 0xF0 0x33)) = Some (5, 0, 0).
Proof. split; vm_compute; reflexivity. Qed.

(** C9.  [Fx15] writes Vx into the sound timer and [Fx18] into the delay
    timer. *)
Theorem timer_writes_swapped (r : Z) (s s1 : Chip8) :
  get_next_instruction s = Some s1 -> debug_print s1 = Some tt ->
  Z.shiftr (opcode s1) 12 = 0xF ->
  (Z.land (opcode s1) 0xFF = 0x15 ->
     execute r s = Some (set_sound s1 (registers s1 (op_x s1)))) /\
  (Z.land (opcode s1) 0xFF = 0x18 ->
     execute r s = Some (set_delay s1 (registers s1 (op_x s1)))).
Proof.
  intros Hf Hd Hc. rewrite (execute_after_fetch r s s1 Hf Hd).
  unfold dispatch. rewrite (class_nibble (opcode s1) 0xF) by (assumption || lia).
  cbn -[exec_f]. unfold exec_f, op_x. rewrite index_reg. cbn [bind].
  split; intro Hk; rewrite Hk; reflexivity.
Qed.

(** C9 witness: V0 = 5, [F015]: the delay timer stays 0, the sound timer
    becomes 5. *)
Lemma timer_writes_swapped_witness :
  execute 0 (fixture 5 0 0 0xF0 0x15)
    = Some (set_sound (fetched (fixture 5 0 0 0xF0 0x15))
              (registers (fetched (fixture 5 0 0 0xF0 0x15))
                 (op_x (fetched (fixture 5 0 0 0xF0 0x15))))) /\
  option_map (fun s => (delay s, sound s))
    (execute 0 (fixture 5 0 0 0xF0 0x15)) = Some (0, 5).
Proof.
  split; [|vm_compute; reflexivity].
  apply (timer_writes_swapped 0 (fixture 5 0 0 0xF0 0x15)
           (fetched (fixture 5 0 0 0xF0 0x15)));
    vm_compute; reflexivity.
Defined.

(** ** ROM loading *)

(** The copy loop stores [vals] verbatim at [base + i ..] when they fit. *)
Lemma store_bytes_fits (vals : list Z) (base i : Z) (m : Z -> Z) :
  0 <= base + i -> base + i + Z.of_nat (length vals) <= MEM_SIZE ->
  exists m', store_bytes vals base i m = Some m' /\
    forall j, m' j =
      if (base + i <=? j) && (j <? base + i + Z.of_nat (length vals))
      then nth (Z.to_nat (j - (base + i))) vals 0 else m j.
Proof.
  revert i m. induction vals as [|v vs IH]; intros i m H0 H1; cbn [store_bytes].
  - exists m. split; [reflexivity|]. intro j. cbn [length Z.of_nat].
    destruct (Z.leb_spec (base + i) j); destruct (Z.ltb_spec j (base + i + 0));
      cbn [andb]; try reflexivity; lia.
  - cbn [length] in H1.
    rewrite index_set_in_bounds by (unfold MEM_SIZE in *; lia). cbn [bind].
    destruct (IH (i + 1) (update m (base + i) v)) as [m' [Hs Hm']];
      [lia | lia |].
    exists m'. split; [exact Hs|]. intro j. rewrite Hm'. cbn [length].
    unfold update.
    destruct (Z.eqb_spec j (base + i)) as [->|Hne].
    + replace (base + (i + 1) <=? base + i) with false by (symmetry; apply Z.leb_gt; lia).
      replace (base + i <=? base + i) with true by (symmetry; apply Z.leb_le; lia).
      replace (base + i <? base + i + Z.of_nat (S (length vs))) with true
        by (symmetry; apply Z.ltb_lt; lia).
      replace (base + i - (base + i)) with 0 by lia. reflexivity.
    + destruct (Z.leb_spec (base + (i + 1)) j);
        destruct (Z.ltb_spec j (base + (i + 1) + Z.of_nat (length vs)));
        destruct (Z.leb_spec (base + i) j);
        destruct (Z.ltb_spec j (base + i + Z.of_nat (S (length vs))));
        cbn [andb]; try lia; try reflexivity.
      replace (Z.to_nat (j - (base + i)))
        with (S (Z.to_nat (j - (base + (i + 1))))) by lia.
      reflexivity.
Qed.

(** The copy loop panics once it reaches index 4096. *)
Lemma store_bytes_overflows (vals : list Z) (base i : Z) (m : Z -> Z) :
  0 <= base + i <= MEM_SIZE -> MEM_SIZE < base + i + Z.of_nat (length vals) ->
  store_bytes vals base i m = None.
Proof.
  revert i m. induction vals as [|v vs IH]; intros i m H H'; cbn [length] in H'.
  - lia.
  - cbn [store_bytes].
    destruct (Z.ltb_spec (base + i) MEM_SIZE).
    + rewrite index_set_in_bounds by lia. cbn [bind]. apply IH; lia.
    + rewrite index_set_out_of_bounds by lia. reflexivity.
Qed.

(** C10 (amended).  [load_rom] has no [RomTooLarge] check.  A ROM of at
    most 3584 bytes is copied verbatim to 0x200.., the rest of memory and
    of the machine unchanged, and [Ok(())] is returned; a longer ROM makes
    the copy loop index [mem[4096]], which panics (index out of bounds)
    instead of returning an error. *)
Theorem load_rom_no_size_check (s : Chip8) (file : list Z) :
  (Z.of_nat (length file) <= 3584 ->
   exists m', load_rom (inr file) s = Some (set_mem s m', inr tt) /\
     forall j, m' j =
       if (0x200 <=? j) && (j <? 0x200 + Z.of_nat (length file))
       then nth (Z.to_nat (j - 0x200)) file 0 else mem s j) /\
  (3584 < Z.of_nat (length file) -> load_rom (inr file) s = None).
Proof.
  split; intro H; unfold load_rom.
  - destruct (store_bytes_fits file 0x200 0 (mem s)) as [m' [Hs Hm']];
      [lia | unfold MEM_SIZE; lia |].
    rewrite Hs. cbn [bind]. exists m'. split; [reflexivity|].
    intro j. rewrite Hm'. reflexivity.
  - rewrite store_bytes_overflows by (unfold MEM_SIZE; lia). reflexivity.
Qed.

(** C10 witness: a 3-byte ROM is copied, a 3585-byte ROM panics. *)
Lemma load_rom_no_size_check_witness :
  (exists m', load_rom (inr [1; 2; 3]) (new false)
                = Some (set_mem (new false) m', inr tt) /\
     forall j, m' j =
       if (0x200 <=? j) && (j <? 0x200 + Z.of_nat (length [1; 2; 3]))
       then nth (Z.to_nat (j - 0x200)) [1; 2; 3] 0 else mem (new false) j) /\
  load_rom (inr (repeat 0 3585)) (new false) = None.
Proof.
  split.
  - apply (proj1 (load_rom_no_size_check (new false) [1; 2; 3])).
    cbn. lia.
  - apply (proj2 (load_rom_no_size_check (new false) (repeat 0 3585))).
    rewrite repeat_length. lia.
Defined.

(** ** Counterexamples *)

(** C10 (counterexample): a 3585-byte ROM gives no [Err] result at all;
    the copy loop panics. *)
Lemma long_rom_panics :
  load_rom (inr (repeat 0 3585)) (new false) = None.
Proof. vm_compute. reflexivity. Qed.

(** * Further properties of the interpreter *)

(** ** [Chip8::new] *)

Lemma copy_font_spec (k : nat) (i : Z) (font m : Z -> Z) (j : Z) :
  copy_font k i font m j =
    if (i <=? j) && (j <? i + Z.of_nat k) then font j else m j.
Proof.
  revert i m. induction k as [|k IH]; intros i m; cbn [copy_font].
  - destruct (Z.leb_spec i j); destruct (Z.ltb_spec j (i + Z.of_nat 0));
      cbn [andb]; try reflexivity; lia.
  - rewrite IH. unfold update.
    destruct (Z.eqb_spec j i) as [->|Hne].
    + destruct (Z.leb_spec (i + 1) i); [lia|].
      destruct (Z.leb_spec i i); [|lia].
      destruct (Z.ltb_spec i (i + Z.of_nat (S k))); [reflexivity | lia].
    + destruct (Z.leb_spec (i + 1) j); destruct (Z.ltb_spec j (i + 1 + Z.of_nat k));
        destruct (Z.leb_spec i j); destruct (Z.ltb_spec j (i + Z.of_nat (S k)));
        cbn [andb]; try reflexivity; lia.
Qed.

(** [Chip8::new] puts the 80 font bytes at [mem[0..80)], zeroes the rest of
    memory, and starts at [pc = 0x200] with [sp = 0], I = 0, all registers,
    timers and pixels 0. *)
Theorem new_initial_state (dbg : bool) :
  (forall j, mem (new dbg) j =
     if (0 <=? j) && (j <? 80) then nth (Z.to_nat j) fontset_bytes 0 else 0) /\
  pc (new dbg) = 0x200 /\ sp (new dbg) = 0 /\ ar (new dbg) = 0 /\
  delay (new dbg) = 0 /\ sound (new dbg) = 0 /\
  (forall i, registers (new dbg) i = 0) /\ (forall g, graphics (new dbg) g = 0).
Proof.
  repeat split; try reflexivity. intro j. cbn [new mem].
  rewrite copy_font_spec. change (0 + Z.of_nat 80) with 80.
  destruct (Z.leb_spec 0 j); cbn [andb]; [|reflexivity].
  destruct (j <? 80); [|reflexivity]. unfold array_of_list.
  destruct (Z.leb_spec 0 j); [reflexivity | lia].
Qed.

(** ** Fetch *)

Lemma lor_shift_byte (hi lo : Z) :
  0 <= hi -> 0 <= lo < 256 -> Z.lor (Z.shiftl hi 8) lo = hi * 256 + lo.
Proof.
  intros Hhi Hlo.
  assert (Hland : Z.land (Z.shiftl hi 8) lo = 0).
  { apply Z.bits_inj'. intros n Hn. rewrite Z.land_spec, Z.bits_0.
    destruct (Z.lt_ge_cases n 8).
    - rewrite Z.shiftl_spec_low by lia. reflexivity.
    - rewrite <- (Z.mod_small lo (2 ^ 8)) by (change (2 ^ 8) with 256; lia).
      rewrite Z.mod_pow2_bits_high by lia. apply andb_false_r. }
  rewrite <- Z.lxor_lor by exact Hland.
  rewrite <- Z.add_nocarry_lxor by exact Hland.
  rewrite Z.shiftl_mul_pow2 by lia. reflexivity.
Qed.

(** [get_next_instruction] reads the big-endian word at [pc] and advances
    [pc] by 2; at [pc = 4095] it panics on [mem[4096]]. *)
Theorem fetch_big_endian (s : Chip8) :
  (0 <= pc s -> pc s + 1 < MEM_SIZE ->
   0 <= mem s (pc s) < 256 -> 0 <= mem s (pc s + 1) < 256 ->
   get_next_instruction s =
     Some (set_pc (set_opcode s (mem s (pc s) * 256 + mem s (pc s + 1)))
                  (pc s + 2))) /\
  (pc s = 4095 -> get_next_instruction s = None).
Proof.
  split.
  - intros H0 H1 Hb0 Hb1. unfold get_next_instruction, MEM_SIZE in *.
    rewrite !index_in_bounds by lia. cbn [bind].
    unfold u16_add. cbn [pc set_opcode].
    destruct (Z.ltb_spec (pc s + 2) 65536); [|lia]. cbn [bind].
    rewrite lor_shift_byte by lia. reflexivity.
  - intro H. unfold get_next_instruction. rewrite H. reflexivity.
Qed.

Lemma fetch_big_endian_witness :
  get_next_instruction fixture_two_loads =
    Some (set_pc (set_opcode fixture_two_loads
                    (mem fixture_two_loads (pc fixture_two_loads) * 256
                     + mem fixture_two_loads (pc fixture_two_loads + 1)))
                 (pc fixture_two_loads + 2)) /\
  get_next_instruction (set_pc fixture_two_loads 4095) = None.
Proof.
  split.
  - apply (proj1 (fetch_big_endian fixture_two_loads)); concrete.
  - apply (proj2 (fetch_big_endian (set_pc fixture_two_loads 4095))).
    reflexivity.
Defined.

(** ** [main]'s loop *)

Lemma execute_ignores_opcode (r v : Z) (s : Chip8) :
  execute r (set_opcode s v) = execute r s.
Proof. reflexivity. Qed.

(** Each iteration of [main]'s loop fetches twice: the instruction at [pc]
    is read and dropped, and the one at [pc + 2] is executed. *)
Theorem main_iteration_skips (r : Z) (s : Chip8) :
  0 <= pc s -> pc s + 1 < MEM_SIZE ->
  main_iteration r s = execute r (set_pc s (pc s + 2)).
Proof.
  intros H0 H1. unfold main_iteration, get_next_instruction, MEM_SIZE in *.
  rewrite !index_in_bounds by lia. cbn [bind].
  unfold u16_add. cbn [pc set_opcode].
  destruct (Z.ltb_spec (pc s + 2) 65536); [|lia]. cbn [bind].
  change (set_pc (set_opcode s (Z.lor (Z.shiftl (mem s (pc s)) 8)
                                        (mem s (pc s + 1)))) (pc s + 2))
    with (set_opcode (set_pc s (pc s + 2))
            (Z.lor (Z.shiftl (mem s (pc s)) 8) (mem s (pc s + 1)))).
  apply execute_ignores_opcode.
Qed.

(** Witness: on [6001; 6102] one loop iteration loads V1 = 2 and never
    loads V0. *)
Lemma main_iteration_skips_witness :
  main_iteration 0 fixture_two_loads
    = execute 0 (set_pc fixture_two_loads (pc fixture_two_loads + 2)) /\
  option_map (fun s => (registers s 0, registers s 1, pc s))
    (main_iteration 0 fixture_two_loads) = Some (0, 2, 0x204).
Proof.
  split; [apply main_iteration_skips; concrete | concrete].
Defined.

(** With [debug] on, the print after the fetch reads [mem[pc + 1]]: the
    instruction at 4094 fetches fine and then panics there, while with
    [debug] off it is dispatched. *)
Theorem debug_print_at_end_panics (r : Z) (s s1 : Chip8) :
  get_next_instruction s = Some s1 -> pc s = 4094 ->
  (debug s = true -> execute r s = None) /\
  (debug s = false -> execute r s = dispatch r s1).
Proof.
  intros Hf Hpc.
  assert (Hs1 : pc s1 = pc s + 2 /\ debug s1 = debug s).
  { revert Hf. unfold get_next_instruction.
    destruct (index (mem s) MEM_SIZE (pc s)); cbn [bind]; [|discriminate].
    destruct (index (mem s) MEM_SIZE (pc s + 1)); cbn [bind]; [|discriminate].
    unfold u16_add. cbn [pc set_opcode].
    destruct (pc s + 2 <? 65536); cbn [bind]; [|discriminate].
    intro Hf. injection Hf as <-. split; reflexivity. }
  destruct Hs1 as [Hpc1 Hdbg]. rewrite Hpc in Hpc1.
  split; intro Hd; unfold execute; rewrite Hf; cbn [bind];
    unfold debug_print; rewrite Hdbg, Hd.
  - rewrite Hpc1. reflexivity.
  - reflexivity.
Qed.

Lemma debug_print_at_end_panics_witness :
  execute 0 (set_pc (new true) 4094) = None /\
  execute 0 (set_pc (new false) 4094)
    = dispatch 0 (fetched (set_pc (new false) 4094)).
Proof.
  split.
  - exact (proj1 (debug_print_at_end_panics 0 (set_pc (new true) 4094)
                    (fetched (set_pc (new true) 4094)) eq_refl eq_refl) eq_refl).
  - exact (proj2 (debug_print_at_end_panics 0 (set_pc (new false) 4094)
                    (fetched (set_pc (new false) 4094)) eq_refl eq_refl) eq_refl).
Defined.

(** ** Instruction classes not covered above *)

Lemma u16_add_ok (a b : Z) : a + b < 65536 -> u16_add a b = Some (a + b).
Proof. intro H. unfold u16_add. cbv zeta. apply Z.ltb_lt in H. now rewrite H. Qed.

Lemma u8_add_ok (a b : Z) : a + b < 256 -> u8_add a b = Some (a + b).
Proof. intro H. unfold u8_add. cbv zeta. apply Z.ltb_lt in H. now rewrite H. Qed.

Lemma u8_add_overflow (a b : Z) : 256 <= a + b -> u8_add a b = None.
Proof.
  intro H. unfold u8_add. cbv zeta.
  destruct (Z.ltb_spec (a + b) 256); [lia | reflexivity].
Qed.

Lemma u8_mul_ok (a b : Z) : a * b < 256 -> u8_mul a b = Some (a * b).
Proof. intro H. unfold u8_mul. cbv zeta. apply Z.ltb_lt in H. now rewrite H. Qed.

Lemma u8_mul_overflow (a b : Z) : 256 <= a * b -> u8_mul a b = None.
Proof.
  intro H. unfold u8_mul. cbv zeta.
  destruct (Z.ltb_spec (a * b) 256); [lia | reflexivity].
Qed.

Ltac enter_class Hf Hd c :=
  rewrite (execute_after_fetch _ _ _ Hf Hd); unfold dispatch;
  rewrite (class_nibble _ c) by (assumption || lia).

(** [3xkk] skips the next instruction iff Vx = kk, [4xkk] iff Vx <> kk. *)
Theorem skip_on_immediate (r : Z) (s s1 : Chip8) :
  get_next_instruction s = Some s1 -> debug_print s1 = Some tt ->
  pc s1 + 2 < 65536 ->
  (Z.shiftr (opcode s1) 12 = 3 ->
   execute r s = Some (if registers s1 (op_x s1) =? op_kk s1
                       then set_pc s1 (pc s1 + 2) else s1)) /\
  (Z.shiftr (opcode s1) 12 = 4 ->
   execute r s = Some (if registers s1 (op_x s1) =? op_kk s1
                       then s1 else set_pc s1 (pc s1 + 2))).
Proof.
  intros Hf Hd Hpc. split; intro Hc; enter_class Hf Hd 3 || enter_class Hf Hd 4;
    unfold op_x; rewrite index_reg; cbn [bind]; rewrite u16_add_ok by lia;
    destruct (_ =? op_kk s1); reflexivity.
Qed.

Lemma skip_on_immediate_witness :
  option_map pc (execute 0 (fixture 7 0 0 0x30 0x07)) = Some 0x204 /\
  execute 0 (fixture 7 0 0 0x30 0x07)
    = Some (if registers (fetched (fixture 7 0 0 0x30 0x07))
                 (op_x (fetched (fixture 7 0 0 0x30 0x07)))
               =? op_kk (fetched (fixture 7 0 0 0x30 0x07))
            then set_pc (fetched (fixture 7 0 0 0x30 0x07))
                   (pc (fetched (fixture 7 0 0 0x30 0x07)) + 2)
            else fetched (fixture 7 0 0 0x30 0x07)).
Proof.
  split; [concrete|].
  apply (proj1 (skip_on_immediate 0 (fixture 7 0 0 0x30 0x07) (fetched (fixture 7 0 0 0x30 0x07))
                  eq_refl eq_refl ltac:(concrete))).
  concrete.
Defined.

(** [5xy_] skips the next instruction iff Vx = Vy and [9xy_] iff Vx <> Vy,
    whatever the low nibble: [5xy1] and [9xyF] behave like [5xy0], [9xy0]. *)
Theorem skip_on_registers (r : Z) (s s1 : Chip8) :
  get_next_instruction s = Some s1 -> debug_print s1 = Some tt ->
  pc s1 + 2 < 65536 ->
  (Z.shiftr (opcode s1) 12 = 5 ->
   execute r s = Some (if registers s1 (op_x s1) =? registers s1 (op_y s1)
                       then set_pc s1 (pc s1 + 2) else s1)) /\
  (Z.shiftr (opcode s1) 12 = 9 ->
   execute r s = Some (if registers s1 (op_x s1) =? registers s1 (op_y s1)
                       then s1 else set_pc s1 (pc s1 + 2))).
Proof.
  intros Hf Hd Hpc. split; intro Hc; enter_class Hf Hd 5 || enter_class Hf Hd 9;
    unfold op_x, op_y; rewrite !index_reg; cbn [bind]; rewrite u16_add_ok by lia;
    destruct (registers s1 _ =? registers s1 _); reflexivity.
Qed.

(** Witness: V0 = V1 = 0 and [5011] (low nibble 1) skips. *)
Lemma skip_on_registers_witness :
  option_map pc (execute 0 (fixture 0 0 0 0x50 0x11)) = Some 0x204 /\
  execute 0 (fixture 0 0 0 0x50 0x11)
    = Some (if registers (fetched (fixture 0 0 0 0x50 0x11))
                 (op_x (fetched (fixture 0 0 0 0x50 0x11)))
               =? registers (fetched (fixture 0 0 0 0x50 0x11))
                    (op_y (fetched (fixture 0 0 0 0x50 0x11)))
            then set_pc (fetched (fixture 0 0 0 0x50 0x11))
                   (pc (fetched (fixture 0 0 0 0x50 0x11)) + 2)
            else fetched (fixture 0 0 0 0x50 0x11)).
Proof.
  split; [concrete|].
  apply (proj1 (skip_on_registers 0 (fixture 0 0 0 0x50 0x11) (fetched (fixture 0 0 0 0x50 0x11))
                  eq_refl eq_refl ltac:(concrete))).
  concrete.
Defined.

(** [6xkk] writes kk into Vx; [7xkk] adds kk to Vx when the sum fits in a
    byte and panics otherwise; neither touches VF unless x = F. *)
Theorem load_add_immediate (r : Z) (s s1 : Chip8) :
  get_next_instruction s = Some s1 -> debug_print s1 = Some tt ->
  (Z.shiftr (opcode s1) 12 = 6 ->
   execute r s = Some (set_registers s1
                         (update (registers s1) (op_x s1) (op_kk s1)))) /\
  (Z.shiftr (opcode s1) 12 = 7 ->
   registers s1 (op_x s1) + op_kk s1 < 256 ->
   execute r s = Some (set_registers s1
                         (update (registers s1) (op_x s1)
                            (registers s1 (op_x s1) + op_kk s1)))) /\
  (Z.shiftr (opcode s1) 12 = 7 ->
   256 <= registers s1 (op_x s1) + op_kk s1 -> execute r s = None).
Proof.
  intros Hf Hd. split; [|split]; intro Hc.
  - enter_class Hf Hd 6. unfold set_reg, op_x.
    rewrite index_set_in_bounds by apply nibble_range. reflexivity.
  - intro Hs. enter_class Hf Hd 7. unfold op_x in *. rewrite index_reg.
    cbn [bind]. rewrite (u8_add_ok (registers s1 _) (op_kk s1)) by exact Hs. cbn [bind]. unfold set_reg.
    rewrite (index_set_in_bounds (registers s1) NUM_REGS _ (registers s1 _ + op_kk s1))
      by apply nibble_range.
    reflexivity.
  - intro Hs. enter_class Hf Hd 7. unfold op_x in *. rewrite index_reg.
    cbn [bind]. rewrite (u8_add_overflow (registers s1 _) (op_kk s1)) by exact Hs. reflexivity.
Qed.

Lemma load_add_immediate_witness :
  option_map (fun s => registers s 0) (execute 0 (fixture 200 0 0 0x70 0x37))
    = Some 255 /\
  execute 0 (fixture 200 0 0 0x70 0x38) = None.
Proof.
  split.
  - rewrite (proj1 (proj2 (load_add_immediate 0 (fixture 200 0 0 0x70 0x37)
                (fetched (fixture 200 0 0 0x70 0x37)) eq_refl eq_refl))
               ltac:(concrete) ltac:(concrete)).
    concrete.
  - exact (proj2 (proj2 (load_add_immediate 0 (fixture 200 0 0 0x70 0x38)
             (fetched (fixture 200 0 0 0x70 0x38)) eq_refl eq_refl))
             ltac:(concrete) ltac:(concrete)).
Defined.

(** [Ex9E], [ExA1] and [Fx0A] are [todo!()]: executing one panics. *)
Theorem unimplemented_opcodes_panic (r : Z) (s s1 : Chip8) :
  get_next_instruction s = Some s1 -> debug_print s1 = Some tt ->
  (Z.shiftr (opcode s1) 12 = 0xE ->
   Z.land (opcode s1) 0xFF = 0x9E \/ Z.land (opcode s1) 0xFF = 0xA1 ->
   execute r s = None) /\
  (Z.shiftr (opcode s1) 12 = 0xF -> Z.land (opcode s1) 0xFF = 0x0A ->
   execute r s = None).
Proof.
  intros Hf Hd. split; intros Hc Hk.
  - enter_class Hf Hd 0xE. destruct Hk as [Hk|Hk]; rewrite Hk; reflexivity.
  - enter_class Hf Hd 0xF. cbn -[exec_f]. unfold exec_f, op_x.
    rewrite index_reg. cbn [bind]. rewrite Hk. reflexivity.
Qed.

Lemma unimplemented_opcodes_panic_witness :
  execute 0 (fixture 0 0 0 0xE0 0x9E) = None /\
  execute 0 (fixture 0 0 0 0xF0 0x0A) = None.
Proof.
  split.
  - exact (proj1 (unimplemented_opcodes_panic 0 (fixture 0 0 0 0xE0 0x9E)
             (fetched (fixture 0 0 0 0xE0 0x9E)) eq_refl eq_refl)
             eq_refl (or_introl eq_refl)).
  - exact (proj2 (unimplemented_opcodes_panic 0 (fixture 0 0 0 0xF0 0x0A)
             (fetched (fixture 0 0 0 0xF0 0x0A)) eq_refl eq_refl)
             eq_refl eq_refl).
Defined.

Lemma dispatch_class_f (r : Z) (s : Chip8) :
  Z.shiftr (opcode s) 12 = 0xF -> dispatch r s = exec_f s.
Proof.
  intro Hc. unfold dispatch.
  rewrite (class_nibble _ 0xF) by (assumption || lia). reflexivity.
Qed.

(** [Fx07] copies the delay timer into Vx.  [Fx29] sets I to [Vx * 5], the
    address of the font glyph of digit Vx, when the product fits in a u8
    (Vx < 52), and panics otherwise. *)
Theorem timer_read_and_font_address (r : Z) (s s1 : Chip8) :
  get_next_instruction s = Some s1 -> debug_print s1 = Some tt ->
  Z.shiftr (opcode s1) 12 = 0xF ->
  (Z.land (opcode s1) 0xFF = 0x07 ->
   execute r s = Some (set_registers s1
                         (update (registers s1) (op_x s1) (delay s1)))) /\
  (Z.land (opcode s1) 0xFF = 0x29 -> registers s1 (op_x s1) < 52 ->
   execute r s = Some (set_ar s1 (registers s1 (op_x s1) * 5))) /\
  (Z.land (opcode s1) 0xFF = 0x29 -> 52 <= registers s1 (op_x s1) ->
   execute r s = None).
Proof.
  intros Hf Hd Hc. rewrite (execute_after_fetch r s s1 Hf Hd).
  rewrite dispatch_class_f by exact Hc. unfold exec_f, op_x.
  rewrite index_reg. cbn [bind].
  split; [|split]; intro Hk; rewrite Hk.
  - cbn -[set_reg]. unfold set_reg.
    rewrite index_set_in_bounds by apply nibble_range. reflexivity.
  - intro Hv. rewrite u8_mul_ok by lia. reflexivity.
  - intro Hv. rewrite u8_mul_overflow by lia. reflexivity.
Qed.

(** Witness: V0 = 0xA, [F029] points I at 50, the glyph "A". *)
Lemma timer_read_and_font_address_witness :
  execute 0 (fixture 10 0 0 0xF0 0x29)
    = Some (set_ar (fetched (fixture 10 0 0 0xF0 0x29))
              (registers (fetched (fixture 10 0 0 0xF0 0x29))
                 (op_x (fetched (fixture 10 0 0 0xF0 0x29))) * 5)) /\
  option_map ar (execute 0 (fixture 10 0 0 0xF0 0x29)) = Some 50.
Proof.
  split; [|concrete].
  exact (proj1 (proj2 (timer_read_and_font_address 0 (fixture 10 0 0 0xF0 0x29)
           (fetched (fixture 10 0 0 0xF0 0x29)) eq_refl eq_refl eq_refl))
           eq_refl ltac:(concrete)).
Defined.

(** [2nnn] jumps to [opcode >> 4]: every call lands in 0x200..0x2FF. *)
Theorem call_target_range (r : Z) (s s1 : Chip8) :
  get_next_instruction s = Some s1 -> debug_print s1 = Some tt ->
  Z.shiftr (opcode s1) 12 = 2 -> 0 <= opcode s1 -> 0 <= sp s1 < 255 ->
  exists s', execute r s = Some s' /\
    pc s' = Z.shiftr (opcode s1) 4 /\ 0x200 <= pc s' < 0x300.
Proof.
  intros Hf Hd Hc Hop Hsp. enter_class Hf Hd 2.
  rewrite (u8_add_ok (sp s1) 1) by lia.
  eexists. split; [reflexivity|]. cbn [pc set_pc]. split; [reflexivity|].
  rewrite Z.shiftr_div_pow2 in Hc |- * by lia.
  change (2 ^ 12) with 4096 in Hc. change (2 ^ 4) with 16.
  pose proof (Z.div_mod (opcode s1) 4096 ltac:(lia)) as E1.
  pose proof (Z.mod_pos_bound (opcode s1) 4096 ltac:(lia)) as B1.
  pose proof (Z.div_mod (opcode s1) 16 ltac:(lia)) as E2.
  pose proof (Z.mod_pos_bound (opcode s1) 16 ltac:(lia)) as B2.
  rewrite Hc in E1. lia.
Qed.

Lemma call_target_range_witness :
  exists s', execute 0 fixture_call_ret = Some s' /\
    pc s' = Z.shiftr (opcode (fetched fixture_call_ret)) 4 /\
    0x200 <= pc s' < 0x300.
Proof.
  apply (call_target_range 0 fixture_call_ret (fetched fixture_call_ret));
    concrete.
Defined.

(** [00E0] turns every pixel off and changes nothing else. *)
Theorem clear_screen (r : Z) (s s1 : Chip8) :
  get_next_instruction s = Some s1 -> debug_print s1 = Some tt ->
  opcode s1 = 0x00E0 ->
  execute r s = Some (set_graphics s1 (fun _ => 0)).
Proof.
  intros Hf Hd Hop. rewrite (execute_after_fetch r s s1 Hf Hd).
  unfold dispatch. rewrite Hop. reflexivity.
Qed.

Lemma clear_screen_witness :
  execute 0 (poke (after 1 fixture_draw_twice) 0x202 [0x00; 0xE0])
    = Some (set_graphics
              (fetched (poke (after 1 fixture_draw_twice) 0x202 [0x00; 0xE0]))
              (fun _ => 0)).
Proof. apply clear_screen; concrete. Defined.

(** A [Dxyn] instruction never turns a pixel off. *)
Theorem draw_never_clears (r : Z) (s s1 s' : Chip8) (g : Z) :
  get_next_instruction s = Some s1 -> debug_print s1 = Some tt ->
  Z.shiftr (opcode s1) 12 = 0xD ->
  execute r s = Some s' -> graphics s1 g = 1 -> graphics s' g = 1.
Proof.
  intros Hf Hd Hc. enter_class Hf Hd 0xD. cbn -[draw_sprite].
  apply draw_sprite_never_clears.
Qed.

Lemma draw_never_clears_witness :
  graphics (fetched (after 1 fixture_draw_twice)) 0 = 1 /\
  graphics (after 2 fixture_draw_twice) 0 = 1.
Proof.
  split; [concrete|].
  apply (draw_never_clears 0 (after 1 fixture_draw_twice)
           (fetched (after 1 fixture_draw_twice))
           (after 2 fixture_draw_twice) 0); concrete.
Defined.

(** ** [Fx55] and [Fx65] *)

Lemma store_regs_spec (k : nat) (i : Z) (s : Chip8) :
  0 <= i -> i + Z.of_nat k <= NUM_REGS ->
  0 <= ar s + i -> ar s + i + Z.of_nat k <= MEM_SIZE ->
  exists s', store_regs k i s = Some s' /\
    registers s' = registers s /\ ar s' = ar s /\
    forall j, mem s' j =
      if (ar s + i <=? j) && (j <? ar s + i + Z.of_nat k)
      then registers s (j - ar s) else mem s j.
Proof.
  unfold NUM_REGS, MEM_SIZE.
  revert i s. induction k as [|k IH]; intros i s H0 H1 H2 H3; cbn [store_regs].
  - exists s. repeat split. intro j. cbn [Z.of_nat].
    destruct (Z.leb_spec (ar s + i) j); destruct (Z.ltb_spec j (ar s + i + 0));
      cbn [andb]; try reflexivity; lia.
  - rewrite index_in_bounds by (unfold NUM_REGS; lia). cbn [bind].
    rewrite index_set_in_bounds by (unfold MEM_SIZE; lia). cbn [bind].
    destruct (IH (i + 1) (set_mem s (update (mem s) (ar s + i) (registers s i))))
      as [s' [Hs [Hr [Ha Hm]]]]; cbn [ar set_mem] in *; try lia.
    exists s'. split; [exact Hs|]. split; [exact Hr|]. split; [exact Ha|].
    intro j. rewrite Hm. cbn [mem registers set_mem]. unfold update.
    destruct (Z.eqb_spec j (ar s + i)) as [->|Hne].
    + destruct (Z.leb_spec (ar s + (i + 1)) (ar s + i)); [lia|].
      destruct (Z.leb_spec (ar s + i) (ar s + i)); [|lia].
      destruct (Z.ltb_spec (ar s + i) (ar s + i + Z.of_nat (S k))); [|lia].
      cbn [andb]. f_equal. lia.
    + destruct (Z.leb_spec (ar s + (i + 1)) j);
        destruct (Z.ltb_spec j (ar s + (i + 1) + Z.of_nat k));
        destruct (Z.leb_spec (ar s + i) j);
        destruct (Z.ltb_spec j (ar s + i + Z.of_nat (S k)));
        cbn [andb]; try reflexivity; lia.
Qed.

Lemma load_regs_spec (k : nat) (i : Z) (s : Chip8) :
  0 <= i -> i + Z.of_nat k <= NUM_REGS ->
  0 <= ar s + i -> ar s + i + Z.of_nat k <= MEM_SIZE ->
  exists s', load_regs k i s = Some s' /\
    mem s' = mem s /\ ar s' = ar s /\
    forall j, registers s' j =
      if (i <=? j) && (j <? i + Z.of_nat k)
      then mem s (ar s + j) else registers s j.
Proof.
  unfold NUM_REGS, MEM_SIZE.
  revert i s. induction k as [|k IH]; intros i s H0 H1 H2 H3; cbn [load_regs].
  - exists s. repeat split. intro j. cbn [Z.of_nat].
    destruct (Z.leb_spec i j); destruct (Z.ltb_spec j (i + 0));
      cbn [andb]; try reflexivity; lia.
  - rewrite index_in_bounds by (unfold MEM_SIZE; lia). cbn [bind].
    unfold set_reg at 1.
    rewrite index_set_in_bounds by (unfold NUM_REGS; lia). cbn [bind].
    destruct (IH (i + 1)
                (set_registers s (update (registers s) i (mem s (ar s + i)))))
      as [s' [Hs [Hm [Ha Hr]]]]; cbn [ar set_registers] in *; try lia.
    exists s'. split; [exact Hs|]. split; [exact Hm|]. split; [exact Ha|].
    intro j. rewrite Hr. cbn [mem registers set_registers]. unfold update.
    destruct (Z.eqb_spec j i) as [->|Hne].
    + destruct (Z.leb_spec (i + 1) i); [lia|].
      destruct (Z.leb_spec i i); [|lia].
      destruct (Z.ltb_spec i (i + Z.of_nat (S k))); [reflexivity | lia].
    + destruct (Z.leb_spec (i + 1) j); destruct (Z.ltb_spec j (i + 1 + Z.of_nat k));
        destruct (Z.leb_spec i j); destruct (Z.ltb_spec j (i + Z.of_nat (S k)));
        cbn [andb]; try reflexivity; lia.
Qed.

(** [Fx55] followed by [Fx65] with the same x and I: the store writes
    V0..Vx to [mem[I..=I+x]] and the load reads them back, so every
    register ends as it was. *)
Theorem store_load_roundtrip (r op' : Z) (s1 : Chip8) :
  Z.shiftr (opcode s1) 12 = 0xF -> Z.land (opcode s1) 0xFF = 0x55 ->
  Z.shiftr op' 12 = 0xF -> Z.land op' 0xFF = 0x65 ->
  Z.land (Z.shiftr op' 8) 0x0F = op_x s1 ->
  0 <= ar s1 -> ar s1 + op_x s1 < MEM_SIZE ->
  exists s2 s3, dispatch r s1 = Some s2 /\
    dispatch r (set_opcode s2 op') = Some s3 /\
    (forall j, mem s2 j =
       if (ar s1 <=? j) && (j <=? ar s1 + op_x s1)
       then registers s1 (j - ar s1) else mem s1 j) /\
    (forall i, registers s3 i = registers s1 i).
Proof.
  intros Hc Hk Hc' Hk' Hx Har Hend.
  pose proof (nibble_range (Z.shiftr (opcode s1) 8)) as Hxr.
  fold (op_x s1) in Hxr.
  rewrite dispatch_class_f by exact Hc. unfold exec_f.
  rewrite (index_in_bounds (registers s1) NUM_REGS (op_x s1)) by exact Hxr.
  cbn [bind]. rewrite Hk. cbn -[store_regs].
  destruct (store_regs_spec (S (Z.to_nat (op_x s1))) 0 s1) as [s2 [Hs [Hr [Ha Hm]]]];
    unfold NUM_REGS, MEM_SIZE in *; try lia.
  rewrite Hs. exists s2.
  rewrite dispatch_class_f by exact Hc'. unfold exec_f.
  change (op_x (set_opcode s2 op')) with (Z.land (Z.shiftr op' 8) 0x0F).
  rewrite Hx.
  rewrite (index_in_bounds (registers (set_opcode s2 op')) NUM_REGS (op_x s1))
    by exact Hxr.
  cbn [bind opcode set_opcode]. rewrite Hk'. cbn -[load_regs].
  destruct (load_regs_spec (S (Z.to_nat (op_x s1))) 0 (set_opcode s2 op'))
    as [s3 [Hl [Hm3 [Ha3 Hr3]]]]; cbn [ar set_opcode]; unfold NUM_REGS, MEM_SIZE;
    try lia.
  rewrite Hl. exists s3. split; [reflexivity|]. split; [reflexivity|].
  split.
  - intro j. rewrite Hm.
    destruct (Z.leb_spec (ar s1 + 0) j); destruct (Z.leb_spec (ar s1) j);
      destruct (Z.ltb_spec j (ar s1 + 0 + Z.of_nat (S (Z.to_nat (op_x s1)))));
      destruct (Z.leb_spec j (ar s1 + op_x s1));
      cbn [andb]; try reflexivity; lia.
  - intro i. rewrite Hr3. cbn [mem registers ar set_opcode].
    rewrite Ha, Hm, Hr.
    destruct (Z.leb_spec 0 i); destruct (Z.ltb_spec i (0 + Z.of_nat (S (Z.to_nat (op_x s1)))));
      cbn [andb]; try reflexivity.
    destruct (Z.leb_spec (ar s1 + 0) (ar s1 + i)); [|lia].
    destruct (Z.ltb_spec (ar s1 + i) (ar s1 + 0 + Z.of_nat (S (Z.to_nat (op_x s1))))); [|lia].
    cbn [andb]. f_equal. lia.
Qed.

(** Witness: I = 0x300, V0 = 7, V1 = 9, [F155] then [F165]. *)
Lemma store_load_roundtrip_witness :
  exists s2 s3, dispatch 0 (fetched (fixture 7 9 0x300 0xF1 0x55)) = Some s2 /\
    dispatch 0 (set_opcode s2 0xF165) = Some s3 /\
    (forall j, mem s2 j =
       if (ar (fetched (fixture 7 9 0x300 0xF1 0x55)) <=? j) &&
          (j <=? ar (fetched (fixture 7 9 0x300 0xF1 0x55))
                 + op_x (fetched (fixture 7 9 0x300 0xF1 0x55)))
       then registers (fetched (fixture 7 9 0x300 0xF1 0x55))
              (j - ar (fetched (fixture 7 9 0x300 0xF1 0x55)))
       else mem (fetched (fixture 7 9 0x300 0xF1 0x55)) j) /\
    (forall i, registers s3 i = registers (fetched (fixture 7 9 0x300 0xF1 0x55)) i).
Proof.
  apply store_load_roundtrip; concrete.
Defined.
